(** * pygmt.src.timestamp: the option builder of [Figure.timestamp]

    A shallow embedding of [src/pygmt/src/timestamp.py] and the properties
    of its parameter validation and of the [-U] option string it assembles.

    The Python function is one straight-line body: it calls
    [self._preprocess()], fills the dictionary [kwdict] (keys [T] and [U]),
    validates [text], and hands the dictionary to the session.  It is
    embedded as one monadic program [timestamp] over a trace of the calls
    made to the collaborators, with Python exceptions as the error
    component. *)

From Stdlib Require Import ZArith NArith String Ascii List DecimalString Lia.
From stdpp Require Import gmap strings fin_maps.

Open Scope string_scope.

(** ** Python values and string operations *)

Module Py.

(** The objects that reach the function as arguments or are stored in
    its dictionaries: strings, integers and booleans. *)
Inductive pyobj : Type :=
| PyStr (s : string)
| PyInt (z : Z)
| PyBool (b : bool).

(** [str(x)]. *)
Definition str (x : pyobj) : string :=
  match x with
  | PyStr s => s
  | PyInt z => NilZero.string_of_int (Z.to_int z)
  | PyBool true => "True"
  | PyBool false => "False"
  end.

(** [f"{x}"], that is [format(x, "")]: with an empty format
    specification the three types above answer with [str(x)]. *)
Definition format (x : pyobj) : string := str x.

(** A Python string is a sequence of code points; it is held here as the
    [string] of its UTF-8 encoding, a code point below 128 being one
    element and any other a lead byte followed by one to three
    continuation bytes (the values 128 to 191). *)
Definition utf8_code_point (cp : N) : string :=
  if (cp <? 128)%N then
    String (ascii_of_N cp) ""
  else if (cp <? 2048)%N then
    String (ascii_of_N (192 + cp / 64))
      (String (ascii_of_N (128 + cp mod 64)) "")
  else if (cp <? 65536)%N then
    String (ascii_of_N (224 + cp / 4096))
      (String (ascii_of_N (128 + (cp / 64) mod 64))
         (String (ascii_of_N (128 + cp mod 64)) ""))
  else
    String (ascii_of_N (240 + cp / 262144))
      (String (ascii_of_N (128 + (cp / 4096) mod 64))
         (String (ascii_of_N (128 + (cp / 64) mod 64))
            (String (ascii_of_N (128 + cp mod 64)) ""))).

Fixpoint utf8 (cps : list N) : string :=
  match cps with
  | [] => ""
  | cp :: cps' => utf8_code_point cp ++ utf8 cps'
  end.

Definition is_continuation (c : ascii) : bool :=
  let n := N_of_ascii c in (128 <=? n)%N && (n <? 192)%N.

(** [len(s)] on a string: the number of its code points, that is of the
    elements of the encoding that are not continuation bytes. *)
Fixpoint len (s : string) : nat :=
  match s with
  | EmptyString => 0
  | String c s' => if is_continuation c then len s' else S (len s')
  end.

(** [sub in s] on strings: substring search from the start.  For an
    ASCII [sub] the search on the encoding finds what the search on the
    code points finds, the bytes of the other code points being 128 or
    more. *)
Definition contains (sub s : string) : bool :=
  match String.index 0 sub s with
  | Some _ => true
  | None => false
  end.

(** [sep.join(items)]. *)
Definition join (sep : string) (items : list string) : string :=
  String.concat sep items.

(** Exceptions: the repository's [GMTInvalidInput] and [GMTCLibError]
    (both carry a message), and the built-in ones an in-place update of
    a dictionary entry can raise. *)
Inductive exn : Type :=
| GMTInvalidInput (msg : string)
| GMTCLibError (msg : string)
| KeyError (key : string)
| TypeError (msg : string).

End Py.
Export Py.

(** ** packaging.version.Version

    Modelled from the spec: [Version] comes from the [packaging] library
    and is compared "using standard semantic-version ordering".  A version
    is its release segment (the engine reports final releases such as
    6.4.0); the comparison key drops trailing zeros and keys are compared
    as Python tuples, i.e. lexicographically. *)

Module Version.

Record t : Type := Make { release : list N }.

Fixpoint dropwhile_zero (l : list N) : list N :=
  match l with
  | [] => []
  | x :: l' => if N.eqb x 0 then dropwhile_zero l' else l
  end.

Definition _cmpkey (v : t) : list N :=
  rev (dropwhile_zero (rev (release v))).

(** Comparison of two tuples of integers. *)
Fixpoint tuple_compare (a b : list N) : comparison :=
  match a, b with
  | [], [] => Eq
  | [], _ :: _ => Lt
  | _ :: _, [] => Gt
  | x :: a', y :: b' =>
      match N.compare x y with
      | Eq => tuple_compare a' b'
      | c => c
      end
  end.

Definition compare (v w : t) : comparison :=
  tuple_compare (_cmpkey v) (_cmpkey w).

Definition lt (v w : t) : bool :=
  match compare v w with Lt => true | _ => false end.

Definition le (v w : t) : bool :=
  match compare v w with Gt => false | _ => true end.

Definition ge (v w : t) : bool := le w v.

Definition gt (v w : t) : bool := lt w v.

(** [Version("6.4.0")] and [Version("6.5.0")]. *)
Definition v6_4_0 : t := Make [6; 4; 0]%N.
Definition v6_5_0 : t := Make [6; 5; 0]%N.

End Version.

(** ** Collaborators and the effect monad *)

(** Calls that leave the function, in the order they are made. *)
Inductive event : Type :=
| EvPreprocess
| EvSessionEnter
| EvCallModule (module args : string)
| EvSessionExit.

(** A computation yields the trace of its calls and either an exception or
    a value. *)
Definition M (A : Type) : Type := (list event * (exn + A))%type.

Definition ret {A : Type} (a : A) : M A := ([], inr a).

Definition raise {A : Type} (e : exn) : M A := ([], inl e).

Definition bind {A B : Type} (m : M A) (k : A -> M B) : M B :=
  match m with
  | (tr, inl e) => (tr, inl e)
  | (tr, inr a) => let '(tr', r) := k a in ((tr ++ tr')%list, r)
  end.

Notation "x <- c1 ;; c2" := (bind c1 (fun x => c2))
  (at level 100, c1 at next level, right associativity).
Notation "c1 ;; c2" := (bind c1 (fun _ => c2))
  (at level 100, right associativity).

Definition emit (ev : event) : M unit := ([ev], inr tt).

Definition trace {A : Type} (m : M A) : list event := fst m.

Definition result {A : Type} (m : M A) : exn + A := snd m.

(** [d[k] += s] for a string [s]: [KeyError] when the key is missing,
    [TypeError] when the stored value is not a string. *)
Definition dict_iadd (d : gmap string pyobj) (k s : string)
  : M (gmap string pyobj) :=
  match d !! k with
  | None => raise (KeyError k)
  | Some (PyStr u) => ret (<[k := PyStr (u ++ s)]> d)
  | Some _ => raise (TypeError "unsupported operand type(s) for +=")
  end.

(** The [offset] argument, "str or tuple": a single string, or an iterable
    given by the items it yields. *)
Inductive offset_arg : Type :=
| OffsetStr (s : string)
| OffsetIter (items : list pyobj).

(** Modelled from the spec: [is_nonstr_iter] is defined in
    [pygmt.helpers], not in this module; by its name and its use ("given a
    tuple" against "given a single value", and the spec's "two-element
    sequence" against "single string") it tells an iterable that is not a
    string from the rest.  The [match] on the argument in [timestamp] is
    this test. *)
Definition is_nonstr_iter (offset : offset_arg) : bool :=
  match offset with
  | OffsetStr _ => false
  | OffsetIter _ => true
  end.

(** Default values of the keyword arguments (lines 15-20). *)
Definition default_justification : pyobj := PyStr "BL".
Definition default_offset : offset_arg :=
  OffsetIter [PyStr "-54p"; PyStr "-54p"].
Definition default_font : pyobj := PyStr "Helvetica,black".
Definition default_timefmt : pyobj := PyStr "%Y %b %d %H:%M:%S".

(** The two messages of the [GMTInvalidInput] raised for [text]. *)
Definition msg_text_requires : string :=
  "The parameter 'text' requires GMT>=6.5.0.".
Definition msg_text_too_long : string :=
  "The parameter 'text' must be less than 64 characters.".

Section Timestamp.

(** [pygmt.__gmt_version__], already parsed. *)
Variable gmt_version : Version.t.

(** [pygmt.helpers.build_arg_string(kwdict, confdict=...)]: defined in
    another module, taken as given. *)
Variable build_arg_string :
  gmap string pyobj -> gmap string pyobj -> string.

(** The engine behind [Session.call_module]: [None] when the module
    runs, [Some msg] when it fails, which the session turns into
    [GMTCLibError]. *)
Variable engine : string -> string -> option string.

(** [self._preprocess()]. *)
Definition _preprocess : M unit := emit EvPreprocess.

(** [lib.call_module(module=..., args=...)]. *)
Definition call_module (module args : string) : M unit :=
  emit (EvCallModule module args) ;;
  match engine module args with
  | None => ret tt
  | Some msg => raise (GMTCLibError msg)
  end.

(** [with Session() as lib: body]: the session is entered, the body
    runs, and the session is left whether or not the body raised. *)
Definition with_Session {A : Type} (body : M A) : M A :=
  let '(tr, r) := body in
  ((EvSessionEnter :: tr ++ [EvSessionExit])%list, r).

Definition timestamp (text label : option pyobj) (justification : pyobj)
    (offset : offset_arg) (font timefmt : pyobj) : M unit :=
  _preprocess ;;
  (* Build the options passed to the "plot" module *)
  let kwdict : gmap string pyobj :=
    {[ "T" := PyBool true; "U" := PyStr "" ]} in
  kwdict <- match label with
            | Some label => dict_iadd kwdict "U" (format label)
            | None => ret kwdict
            end ;;
  kwdict <- dict_iadd kwdict "U" ("+j" ++ format justification) ;;
  kwdict <- match offset with
            | OffsetIter items => (* is_nonstr_iter(offset): a tuple *)
                dict_iadd kwdict "U"
                  ("+o" ++ join "/" (map format items))
            | OffsetStr offset => (* given a single value *)
                if negb (contains "/" offset)
                   && Version.le gmt_version Version.v6_4_0
                then dict_iadd kwdict "U" ("+o" ++ offset ++ "/" ++ offset)
                else dict_iadd kwdict "U" ("+o" ++ offset)
            end ;;
  (* The +t modifier was added in GMT 6.5.0. *)
  kwdict <- match text with
            | Some text =>
                if Version.lt gmt_version Version.v6_5_0
                then raise (GMTInvalidInput msg_text_requires)
                else if (64 <? len (str text))%nat
                then raise (GMTInvalidInput msg_text_too_long)
                else dict_iadd kwdict "U" ("+t" ++ format text)
            | None => ret kwdict
            end ;;
  with_Session
    (call_module "plot"
       (build_arg_string kwdict
          {[ "FONT_LOGO" := font; "FORMAT_TIME_STAMP" := timefmt ]})).

(** [fig.timestamp()]: every argument left at its default. *)
Definition timestamp_default : M unit :=
  timestamp None None default_justification default_offset
    default_font default_timefmt.

(** The two outcomes a call can have.  [rejected msg]: the call raised
    [GMTInvalidInput msg] after the preprocessing and before a session
    was opened.  [forwarded kwdict confdict]: the dictionaries went
    through [build_arg_string] to the "plot" module inside a session,
    and the call ends the way the engine answers. *)
Definition rejected (msg : string) : M unit :=
  ([EvPreprocess], inl (GMTInvalidInput msg)).

Definition forwarded (kwdict confdict : gmap string pyobj) : M unit :=
  ([EvPreprocess; EvSessionEnter;
    EvCallModule "plot" (build_arg_string kwdict confdict);
    EvSessionExit],
   match engine "plot" (build_arg_string kwdict confdict) with
   | None => inr tt
   | Some msg => inl (GMTCLibError msg)
   end).

(** [text] passes the two checks of lines 87-93: it is absent, or the
    engine is at least 6.5.0 and [str(text)] has at most 64 characters. *)
Definition text_accepted (text : option pyobj) : Prop :=
  match text with
  | None => True
  | Some t =>
      Version.ge gmt_version Version.v6_5_0 = true /\ (len (str t) <= 64)%nat
  end.

(** Closed forms used by the proofs: the dictionary [{T: True, U: u}] as
    the function builds it, and what the offset block appends to [U]. *)
Definition options (u : string) : gmap string pyobj :=
  {[ "T" := PyBool true; "U" := PyStr u ]}.

Definition offset_modifier (offset : offset_arg) : string :=
  match offset with
  | OffsetIter items => "+o" ++ join "/" (map format items)
  | OffsetStr s =>
      if negb (contains "/" s) && Version.le gmt_version Version.v6_4_0
      then "+o" ++ s ++ "/" ++ s
      else "+o" ++ s
  end.

End Timestamp.

(** Concrete collaborators, to run the model on given calls: a serializer
    that prints the [U] entry after the flags, and an engine that runs
    every module. *)
Definition sample_build_arg_string (kwdict confdict : gmap string pyobj)
  : string :=
  match kwdict !! "U" with
  | Some u => "-T -U" ++ str u
  | None => "-T"
  end.

Definition quiet_engine (module args : string) : option string := None.

(** A text of exactly 64 characters, and one of 65. *)
Definition text64 : string :=
  "abcdefghijklmnopqrstuvwxyzABCDEFGHIJKLMNOPQRSTUVWXYZ0123456789+-".
Definition text65 : string := text64 ++ "!".

(** A text of 64 characters that is not ASCII: 63 letters and U+00E9
    (e with acute accent), two bytes in UTF-8. *)
Definition text64_accented : string :=
  "abcdefghijklmnopqrstuvwxyzABCDEFGHIJKLMNOPQRSTUVWXYZ0123456789+"
  ++ utf8 [233%N].

(** * Properties *)

(** ** Strings *)

Lemma append_assoc (a b c : string) : (a ++ b) ++ c = a ++ b ++ c.
Proof.
  induction a as [|ch a IH].
  - reflexivity.
  - change (String ch ((a ++ b) ++ c) = String ch (a ++ b ++ c)).
    now rewrite IH.
Qed.

Lemma append_nil_r (a : string) : a ++ "" = a.
Proof.
  induction a as [|ch a IH].
  - reflexivity.
  - change (String ch (a ++ "") = String ch a). now rewrite IH.
Qed.

Ltac norm_str := rewrite ?append_assoc, ?append_nil_r.

(** ** [len] counts code points *)

Lemma len_app (a b : string) : len (a ++ b) = (len a + len b)%nat.
Proof.
  induction a as [|c a IH].
  - reflexivity.
  - change (len (String c (a ++ b)) = (len (String c a) + len b)%nat).
    simpl. rewrite IH. destruct (is_continuation c); reflexivity.
Qed.

Lemma is_continuation_ascii_of_N (n : N) :
  (n < 256)%N ->
  is_continuation (ascii_of_N n) = ((128 <=? n)%N && (n <? 192)%N).
Proof.
  intros Hn. unfold is_continuation.
  rewrite (N_ascii_embedding n Hn). reflexivity.
Qed.

Lemma is_continuation_lead (n : N) :
  (n < 128 \/ 192 <= n < 256)%N -> is_continuation (ascii_of_N n) = false.
Proof.
  intros Hn. rewrite is_continuation_ascii_of_N by lia.
  destruct (N.leb_spec 128 n), (N.ltb_spec n 192); try reflexivity;
    exfalso; lia.
Qed.

Lemma is_continuation_tail (n : N) :
  is_continuation (ascii_of_N (128 + n mod 64)) = true.
Proof.
  assert (Hm : (n mod 64 < 64)%N) by (apply N.mod_upper_bound; discriminate).
  revert Hm. generalize (n mod 64)%N. intros m Hm.
  rewrite is_continuation_ascii_of_N by lia.
  destruct (N.leb_spec 128 (128 + m)), (N.ltb_spec (128 + m) 192);
    try reflexivity; exfalso; lia.
Qed.

(** One code point, however many bytes its encoding takes, counts for one. *)
Lemma len_utf8_code_point (cp : N) :
  (cp < 1114112)%N -> len (utf8_code_point cp) = 1%nat.
Proof.
  intros Hcp. unfold utf8_code_point.
  destruct (N.ltb_spec cp 128) as [H1|H1].
  { simpl. rewrite is_continuation_lead by lia. reflexivity. }
  destruct (N.ltb_spec cp 2048) as [H2|H2].
  { assert (0 <= cp / 64 < 32)%N
      by (split; [apply N.le_0_l | apply N.Div0.div_lt_upper_bound; lia]).
    simpl. rewrite is_continuation_lead by lia.
    rewrite is_continuation_tail. reflexivity. }
  destruct (N.ltb_spec cp 65536) as [H3|H3].
  { assert (0 <= cp / 4096 < 16)%N
      by (split; [apply N.le_0_l | apply N.Div0.div_lt_upper_bound; lia]).
    simpl. rewrite is_continuation_lead by lia.
    rewrite !is_continuation_tail. reflexivity. }
  assert (0 <= cp / 262144 < 5)%N
      by (split; [apply N.le_0_l | apply N.Div0.div_lt_upper_bound; lia]).
  simpl. rewrite is_continuation_lead by lia.
  rewrite !is_continuation_tail. reflexivity.
Qed.

(** [len] of the encoding of a sequence of code points is the length of
    the sequence: what Python's [len] answers on the string. *)
Lemma len_utf8 (cps : list N) :
  Forall (fun cp => (cp < 1114112)%N) cps ->
  len (utf8 cps) = length cps.
Proof.
  induction 1 as [|cp cps Hcp _ IH].
  - reflexivity.
  - change (len (utf8_code_point cp ++ utf8 cps) = S (length cps)).
    rewrite len_app, (len_utf8_code_point cp Hcp), IH. reflexivity.
Qed.

(** On a string of ASCII characters it is the number of elements. *)
Lemma len_ascii (s : string) :
  Forall (fun c => (N_of_ascii c < 128)%N) (list_ascii_of_string s) ->
  len s = String.length s.
Proof.
  induction s as [|c s IH]; intros H.
  - reflexivity.
  - change (list_ascii_of_string (String c s))
      with (c :: list_ascii_of_string s) in H.
    inversion H as [|? ? Hc Hs]; subst. simpl.
    unfold is_continuation.
    destruct (N.leb_spec 128 (N_of_ascii c)); [lia|]. simpl.
    now rewrite IH.
Qed.

(** A text of 64 code points may take more than 64 bytes. *)
Example len_text64_accented :
  len text64_accented = 64%nat /\ String.length text64_accented = 65%nat.
Proof. split; reflexivity. Qed.

(** ** Version ordering *)

Lemma tuple_compare_antisym (a b : list N) :
  Version.tuple_compare b a = CompOpp (Version.tuple_compare a b).
Proof.
  revert b; induction a as [|x a IH]; intros [|y b]; simpl; try reflexivity.
  rewrite (N.compare_antisym x y).
  destruct (N.compare x y); simpl; auto.
Qed.

(** [v < w] is the negation of [v >= w]. *)
Lemma version_lt_not_ge (v w : Version.t) :
  Version.lt v w = negb (Version.ge v w).
Proof.
  unfold Version.ge, Version.le, Version.lt, Version.compare.
  rewrite (tuple_compare_antisym (Version._cmpkey v) (Version._cmpkey w)).
  destruct (Version.tuple_compare _ _); reflexivity.
Qed.

Lemma version_ge_lt_false (v w : Version.t) :
  Version.ge v w = true -> Version.lt v w = false.
Proof. intros H. rewrite version_lt_not_ge, H. reflexivity. Qed.

(** Trailing zeros do not count: 6.5 and 6.5.0 are the same version. *)
Example version_6_5_same :
  Version.compare (Version.Make [6; 5]%N) Version.v6_5_0 = Eq.
Proof. reflexivity. Qed.

Example version_6_4_0_below_6_5_0 :
  Version.lt Version.v6_4_0 Version.v6_5_0 = true.
Proof. reflexivity. Qed.

Example version_6_10_0_above_6_5_0 :
  Version.lt (Version.Make [6; 10; 0]%N) Version.v6_5_0 = false.
Proof. reflexivity. Qed.

(** ** The monad *)

Lemma bind_ret_l {A B : Type} (a : A) (k : A -> M B) :
  (x <- ret a ;; k x) = k a.
Proof. unfold bind, ret. destruct (k a); reflexivity. Qed.

Lemma bind_emit {B : Type} (ev : event) (k : unit -> M B) :
  (x <- emit ev ;; k x) = (ev :: trace (k tt), result (k tt)).
Proof. unfold bind, emit. destruct (k tt); reflexivity. Qed.

(** ** The dictionary *)

Lemma dict_iadd_options (u s : string) :
  dict_iadd (options u) "U" s = ret (options (u ++ s)).
Proof.
  unfold dict_iadd, options.
  rewrite lookup_insert_ne by discriminate.
  rewrite lookup_singleton_eq.
  rewrite insert_insert_ne by discriminate.
  rewrite insert_singleton_eq. reflexivity.
Qed.

(** ** The body of [timestamp], block by block *)

Section TimestampFacts.

Variable gmt_version : Version.t.
Variable build_arg_string :
  gmap string pyobj -> gmap string pyobj -> string.
Variable engine : string -> string -> option string.

(** Lines 71-72: the label, when given, opens [U]. *)
Lemma label_block (label : option pyobj) :
  match label with
  | Some label => dict_iadd (options "") "U" (format label)
  | None => ret (options "")
  end = ret (options (from_option format "" label)).
Proof.
  destruct label as [l|]; simpl; [|reflexivity].
  apply dict_iadd_options.
Qed.

(** Lines 75-83: the offset block appends [offset_modifier offset]. *)
Lemma offset_block (u : string) (offset : offset_arg) :
  match offset with
  | OffsetIter items =>
      dict_iadd (options u) "U" ("+o" ++ join "/" (map format items))
  | OffsetStr offset =>
      if negb (contains "/" offset)
         && Version.le gmt_version Version.v6_4_0
      then dict_iadd (options u) "U" ("+o" ++ offset ++ "/" ++ offset)
      else dict_iadd (options u) "U" ("+o" ++ offset)
  end = ret (options (u ++ offset_modifier gmt_version offset)).
Proof.
  destruct offset as [s|items]; simpl.
  - destruct (negb (contains "/" s) && Version.le gmt_version Version.v6_4_0);
      apply dict_iadd_options.
  - apply dict_iadd_options.
Qed.

(** Lines 96-102: the session block, run after the preprocessing. *)
Lemma session_block (kwdict confdict : gmap string pyobj) :
  (_preprocess ;;
   with_Session
     (call_module engine "plot" (build_arg_string kwdict confdict)))
  = forwarded build_arg_string engine kwdict confdict.
Proof.
  unfold _preprocess, call_module, with_Session, forwarded.
  rewrite !bind_emit.
  destruct (engine "plot" (build_arg_string kwdict confdict));
    reflexivity.
Qed.

Lemma preprocess_then {A : Type} (m : M A) :
  (EvPreprocess :: trace m, result m) = (_preprocess ;; m).
Proof. unfold _preprocess. now rewrite bind_emit. Qed.

(** The whole body in closed form. *)
Lemma timestamp_eq (text label : option pyobj) (justification : pyobj)
    (offset : offset_arg) (font timefmt : pyobj) :
  timestamp gmt_version build_arg_string engine
    text label justification offset font timefmt =
  let forwarded := forwarded build_arg_string engine in
  let u := from_option format "" label ++ "+j" ++ format justification
           ++ offset_modifier gmt_version offset in
  let confdict : gmap string pyobj :=
    {[ "FONT_LOGO" := font; "FORMAT_TIME_STAMP" := timefmt ]} in
  match text with
  | None => forwarded (options u) confdict
  | Some t =>
      if Version.lt gmt_version Version.v6_5_0
      then rejected msg_text_requires
      else if (64 <? len (str t))%nat
           then rejected msg_text_too_long
           else forwarded (options (u ++ "+t" ++ format t)) confdict
  end.
Proof.
  cbv zeta.
  unfold timestamp. fold (options "").
  unfold _preprocess at 1. rewrite bind_emit.
  rewrite label_block, bind_ret_l.
  rewrite dict_iadd_options, bind_ret_l.
  rewrite offset_block, bind_ret_l.
  rewrite !append_assoc.
  destruct text as [t|].
  - destruct (Version.lt gmt_version Version.v6_5_0); [reflexivity|].
    destruct (64 <? len (str t))%nat; [reflexivity|].
    rewrite dict_iadd_options, bind_ret_l, !append_assoc.
    rewrite preprocess_then. apply session_block.
  - rewrite bind_ret_l, preprocess_then. apply session_block.
Qed.

(** A forwarded call never ends in [GMTInvalidInput]: the only exception
    it can end in is the engine's [GMTCLibError]. *)
Lemma forwarded_not_invalid (kwdict confdict : gmap string pyobj)
    (msg : string) :
  result (forwarded build_arg_string engine kwdict confdict) <> inl (GMTInvalidInput msg).
Proof.
  unfold forwarded, result. simpl.
  destruct (engine "plot" (build_arg_string kwdict confdict)); discriminate.
Qed.

End TimestampFacts.


(** ** Runs of the model *)

Example run_single_offset_6_5_0 :
  timestamp Version.v6_5_0 sample_build_arg_string quiet_engine
    None None default_justification (OffsetStr "10p")
    default_font default_timefmt
  = ([EvPreprocess; EvSessionEnter;
      EvCallModule "plot" "-T -U+jBL+o10p"; EvSessionExit], inr tt).
Proof. reflexivity. Qed.

Example run_single_offset_6_4_0 :
  timestamp Version.v6_4_0 sample_build_arg_string quiet_engine
    None None default_justification (OffsetStr "10p")
    default_font default_timefmt
  = ([EvPreprocess; EvSessionEnter;
      EvCallModule "plot" "-T -U+jBL+o10p/10p"; EvSessionExit], inr tt).
Proof. reflexivity. Qed.

(** A single value that already holds both offsets is left alone. *)
Example run_offset_with_slash_6_4_0 :
  timestamp Version.v6_4_0 sample_build_arg_string quiet_engine
    None None default_justification (OffsetStr "10p/5p")
    default_font default_timefmt
  = ([EvPreprocess; EvSessionEnter;
      EvCallModule "plot" "-T -U+jBL+o10p/5p"; EvSessionExit], inr tt).
Proof. reflexivity. Qed.

(** The session is left when the engine fails, and the failure is the
    caller's to see. *)
Example run_engine_failure :
  timestamp Version.v6_5_0 sample_build_arg_string
    (fun _ _ => Some "plot [ERROR]")
    None None (PyStr "XY") default_offset default_font default_timefmt
  = ([EvPreprocess; EvSessionEnter;
      EvCallModule "plot" "-T -U+jXY+o-54p/-54p"; EvSessionExit],
     inl (GMTCLibError "plot [ERROR]")).
Proof. reflexivity. Qed.

Example run_text_of_64 :
  result (timestamp Version.v6_5_0 sample_build_arg_string quiet_engine
            (Some (PyStr text64)) None default_justification default_offset
            default_font default_timefmt)
  = inr tt.
Proof. reflexivity. Qed.

(** 64 characters in 65 bytes: accepted, the limit is on characters. *)
Example run_text_of_64_accented :
  result (timestamp Version.v6_5_0 sample_build_arg_string quiet_engine
            (Some (PyStr text64_accented)) None default_justification
            default_offset default_font default_timefmt)
  = inr tt.
Proof. reflexivity. Qed.

Example run_text_of_65 :
  timestamp Version.v6_5_0 sample_build_arg_string quiet_engine
    (Some (PyStr text65)) None default_justification default_offset
    default_font default_timefmt
  = ([EvPreprocess], inl (GMTInvalidInput msg_text_too_long)).
Proof. reflexivity. Qed.

(** The variant of [offset_arg] is what [is_nonstr_iter] tests. *)
Lemma is_nonstr_iter_true (offset : offset_arg) :
  is_nonstr_iter offset = true <-> exists items, offset = OffsetIter items.
Proof.
  destruct offset as [s|items]; simpl; split.
  - discriminate.
  - intros [items H]. discriminate.
  - eauto.
  - reflexivity.
Qed.

(** [contains "/" s] is membership of the character in the string. *)
Lemma contains_slash_iff (s : string) :
  contains "/" s = true <-> In "/"%char (list_ascii_of_string s).
Proof.
  unfold contains. induction s as [|c s IH].
  - simpl. split; [discriminate | tauto].
  - change (list_ascii_of_string (String c s))
      with (c :: list_ascii_of_string s).
    change (String.index 0 "/" (String c s))
      with (if String.prefix "/" (String c s) then Some 0
            else match String.index 0 "/" s with
                 | Some n => Some (S n)
                 | None => None
                 end).
    change (String.prefix "/" (String c s))
      with (if ascii_dec "/" c then String.prefix "" s else false).
    destruct (ascii_dec "/" c) as [->|Hne].
    + destruct s; simpl; split; auto.
    + destruct (String.index 0 "/" s) as [n|]; simpl in *.
      * split; auto. intros _. right. apply IH. reflexivity.
      * split; [discriminate|]. intros [Heq|Hin]; [congruence|].
        apply IH in Hin. discriminate.
Qed.

(** ** The claims *)

Section Claims.

Variable gmt_version : Version.t.
Variable build_arg_string :
  gmap string pyobj -> gmap string pyobj -> string.
Variable engine : string -> string -> option string.

Local Abbreviation timestamp :=
  (timestamp gmt_version build_arg_string engine).
Local Abbreviation forwarded := (forwarded build_arg_string engine).
Local Abbreviation text_accepted := (text_accepted gmt_version).

(** C1. When [text] is given: on an engine strictly below 6.5.0 the call
    raises the version error ([GMTInvalidInput] with the "requires
    GMT>=6.5.0" message, the spec's UnsupportedFeatureError) with nothing
    but the preprocessing done, hence before any command is executed; on
    6.5.0 or higher, with a text of at most 64 characters, no
    [GMTInvalidInput] is raised and the [U] value passed on ends with
    ["+t"] followed by the text. *)
Theorem text_version_gate (t : pyobj) (label : option pyobj)
    (justification : pyobj) (offset : offset_arg) (font timefmt : pyobj) :
  (Version.lt gmt_version Version.v6_5_0 = true ->
   timestamp (Some t) label justification offset font timefmt
   = rejected msg_text_requires)
  /\ (Version.ge gmt_version Version.v6_5_0 = true ->
      (len (str t) <= 64)%nat ->
      (forall msg,
          result (timestamp (Some t) label justification offset font timefmt)
          <> inl (GMTInvalidInput msg))
      /\ exists u,
          timestamp (Some t) label justification offset font timefmt
          = forwarded
              {[ "T" := PyBool true; "U" := PyStr (u ++ "+t" ++ str t) ]}
              {[ "FONT_LOGO" := font; "FORMAT_TIME_STAMP" := timefmt ]}).
Proof.
  rewrite timestamp_eq; cbv zeta. split.
  - intros ->. reflexivity.
  - intros Hge Hlen. rewrite (version_ge_lt_false _ _ Hge).
    assert (Hle : (64 <? len (str t))%nat = false)
      by (apply Nat.ltb_ge; exact Hlen).
    rewrite Hle. split.
    + intros msg. apply forwarded_not_invalid.
    + eexists. unfold options. reflexivity.
Qed.

(** C2. On an engine of at least 6.5.0: a text whose string conversion has
    at most 64 characters (code points, as [len_utf8] shows) passes (the call is forwarded to the engine and
    no [GMTInvalidInput] is raised), and one of 65 characters or more
    raises the too-long error ([GMTInvalidInput] with the "must be less
    than 64 characters" message, the spec's InvalidValueError). *)
Theorem text_length_limit (t : pyobj) (label : option pyobj)
    (justification : pyobj) (offset : offset_arg) (font timefmt : pyobj) :
  Version.ge gmt_version Version.v6_5_0 = true ->
  ((len (str t) <= 64)%nat ->
   (exists u,
       timestamp (Some t) label justification offset font timefmt
       = forwarded
           {[ "T" := PyBool true; "U" := PyStr u ]}
           {[ "FONT_LOGO" := font; "FORMAT_TIME_STAMP" := timefmt ]})
   /\ forall msg,
       result (timestamp (Some t) label justification offset font timefmt)
       <> inl (GMTInvalidInput msg))
  /\ ((65 <= len (str t))%nat ->
      timestamp (Some t) label justification offset font timefmt
      = rejected msg_text_too_long).
Proof.
  intros Hge. rewrite timestamp_eq; cbv zeta.
  rewrite (version_ge_lt_false _ _ Hge). split.
  - intros Hlen.
    assert (Hle : (64 <? len (str t))%nat = false)
      by (apply Nat.ltb_ge; exact Hlen).
    rewrite Hle. split.
    + eexists. unfold options. reflexivity.
    + intros msg. apply forwarded_not_invalid.
  - intros Hlen.
    assert (Hgt : (64 <? len (str t))%nat = true)
      by (apply Nat.ltb_lt; lia).
    rewrite Hgt. reflexivity.
Qed.

(** C9. When [text] is given, the engine is below 6.5.0 and the text is
    longer than 64 characters, the version check comes first: the call
    raises the version error, not the too-long one. *)
Theorem version_check_precedes_length_check (t : pyobj)
    (label : option pyobj) (justification : pyobj) (offset : offset_arg)
    (font timefmt : pyobj) :
  Version.lt gmt_version Version.v6_5_0 = true ->
  (64 < len (str t))%nat ->
  timestamp (Some t) label justification offset font timefmt
  = rejected msg_text_requires
  /\ result (timestamp (Some t) label justification offset font timefmt)
     <> inl (GMTInvalidInput msg_text_too_long).
Proof.
  intros Hlt _. rewrite timestamp_eq; cbv zeta. rewrite Hlt.
  split; [reflexivity | discriminate].
Qed.

(** Normal form of the [U] value of an accepted call. *)
Lemma timestamp_accepted (text label : option pyobj) (justification : pyobj)
    (offset : offset_arg) (font timefmt : pyobj) :
  text_accepted text ->
  timestamp text label justification offset font timefmt
  = forwarded
      (options (from_option format "" label ++ "+j" ++ format justification
                ++ offset_modifier gmt_version offset
                ++ from_option (fun t => "+t" ++ str t) "" text))
      {[ "FONT_LOGO" := font; "FORMAT_TIME_STAMP" := timefmt ]}.
Proof.
  intros Hacc. rewrite timestamp_eq; cbv zeta.
  destruct text as [t|]; simpl in *.
  - destruct Hacc as [Hge Hlen].
    rewrite (version_ge_lt_false _ _ Hge).
    assert (Hle : (64 <? len (str t))%nat = false)
      by (apply Nat.ltb_ge; exact Hlen).
    rewrite Hle. norm_str. reflexivity.
  - norm_str. reflexivity.
Qed.

(** C3. A single string offset without ["/"], on a call that passes the
    checks on [text]: when the engine is at most 6.4.0 the offset part of
    [U] is ["+o"] with the value given twice around ["/"], otherwise it is
    ["+o"] with the value as it is; it stands right after the
    justification and before the text. *)
Theorem single_offset_fragment (s : string) (text label : option pyobj)
    (justification : pyobj) (font timefmt : pyobj) :
  contains "/" s = false ->
  text_accepted text ->
  timestamp text label justification (OffsetStr s) font timefmt
  = forwarded
      {[ "T" := PyBool true;
         "U" := PyStr (from_option format "" label
                       ++ "+j" ++ format justification
                       ++ (if Version.le gmt_version Version.v6_4_0
                           then "+o" ++ s ++ "/" ++ s
                           else "+o" ++ s)
                       ++ from_option (fun t => "+t" ++ str t) "" text) ]}
      {[ "FONT_LOGO" := font; "FORMAT_TIME_STAMP" := timefmt ]}.
Proof.
  intros Hs Hacc. rewrite (timestamp_accepted _ _ _ _ _ _ Hacc).
  unfold options. unfold offset_modifier. rewrite Hs. reflexivity.
Qed.

(** C4. A two-element offset [(x, y)], on a call that passes the checks on
    [text] and whatever the engine version: the offset part of [U] is
    ["+o"], [x], ["/"], [y]. *)
Theorem pair_offset_fragment (x y : pyobj) (text label : option pyobj)
    (justification : pyobj) (font timefmt : pyobj) :
  text_accepted text ->
  timestamp text label justification (OffsetIter [x; y]) font timefmt
  = forwarded
      {[ "T" := PyBool true;
         "U" := PyStr (from_option format "" label
                       ++ "+j" ++ format justification
                       ++ "+o" ++ str x ++ "/" ++ str y
                       ++ from_option (fun t => "+t" ++ str t) "" text) ]}
      {[ "FONT_LOGO" := font; "FORMAT_TIME_STAMP" := timefmt ]}.
Proof.
  intros Hacc. rewrite (timestamp_accepted _ _ _ _ _ _ Hacc).
  unfold options. unfold offset_modifier, join, format. simpl.
  norm_str. reflexivity.
Qed.

(** C10. An iterable offset of any length, on a call that passes the
    checks on [text]: no error is raised by the builder and the offset part
    of [U] is ["+o"] followed by the string conversions of all the items
    joined with ["/"]; three items give ["+o1p/2p/3p"], none gives the
    bare ["+o"]. *)
Theorem iterable_offset_fragment :
  (forall (items : list pyobj) (text label : option pyobj)
          (justification : pyobj) (font timefmt : pyobj),
      text_accepted text ->
      timestamp text label justification (OffsetIter items) font timefmt
      = forwarded
          {[ "T" := PyBool true;
             "U" := PyStr (from_option format "" label
                           ++ "+j" ++ format justification
                           ++ "+o" ++ join "/" (map str items)
                           ++ from_option (fun t => "+t" ++ str t) "" text) ]}
          {[ "FONT_LOGO" := font; "FORMAT_TIME_STAMP" := timefmt ]})
  /\ timestamp None None default_justification
       (OffsetIter [PyStr "1p"; PyStr "2p"; PyStr "3p"])
       default_font default_timefmt
     = forwarded
         {[ "T" := PyBool true; "U" := PyStr "+jBL+o1p/2p/3p" ]}
         {[ "FONT_LOGO" := default_font;
            "FORMAT_TIME_STAMP" := default_timefmt ]}
  /\ timestamp None None default_justification (OffsetIter [])
       default_font default_timefmt
     = forwarded
         {[ "T" := PyBool true; "U" := PyStr "+jBL+o" ]}
         {[ "FONT_LOGO" := default_font;
            "FORMAT_TIME_STAMP" := default_timefmt ]}.
Proof.
  split; [|split].
  - intros items text label justification font timefmt Hacc.
    rewrite (timestamp_accepted _ _ _ _ _ _ Hacc).
    unfold options. unfold offset_modifier. norm_str. reflexivity.
  - rewrite timestamp_eq; cbv zeta. unfold options. reflexivity.
  - rewrite timestamp_eq; cbv zeta. unfold options. reflexivity.
Qed.

(** C5. Every call that passes the checks on [text] hands over the
    dictionary with [T] set to [True] and a string [U], and [U] is, in
    this order: the label as given (nothing when absent), ["+j"] with the
    justification, the ["+o"] offset part, and ["+t"] with the text (only
    when given).  With the label "Powered by PyGMT" and the defaults, [U]
    starts with the label followed at once by ["+jBL"]. *)
Theorem option_string_order :
  (forall (text label : option pyobj) (justification : pyobj)
          (offset : offset_arg) (font timefmt : pyobj),
      text_accepted text ->
      timestamp text label justification offset font timefmt
      = forwarded
          {[ "T" := PyBool true;
             "U" := PyStr
                      (from_option format "" label
                       ++ "+j" ++ format justification
                       ++ "+o"
                       ++ match offset with
                          | OffsetIter items => join "/" (map format items)
                          | OffsetStr s =>
                              if negb (contains "/" s)
                                 && Version.le gmt_version Version.v6_4_0
                              then s ++ "/" ++ s
                              else s
                          end
                       ++ from_option (fun t => "+t" ++ format t) "" text) ]}
          {[ "FONT_LOGO" := font; "FORMAT_TIME_STAMP" := timefmt ]})
  /\ timestamp None (Some (PyStr "Powered by PyGMT")) default_justification
       default_offset default_font default_timefmt
     = forwarded
         {[ "T" := PyBool true;
            "U" := PyStr ("Powered by PyGMT" ++ "+jBL" ++ "+o-54p/-54p") ]}
         {[ "FONT_LOGO" := default_font;
            "FORMAT_TIME_STAMP" := default_timefmt ]}.
Proof.
  split.
  - intros text label justification offset font timefmt Hacc.
    rewrite (timestamp_accepted _ _ _ _ _ _ Hacc). unfold options.
    unfold offset_modifier.
    destruct offset as [s|items].
    + destruct (negb (contains "/" s)
                && Version.le gmt_version Version.v6_4_0);
        norm_str; reflexivity.
    + norm_str. reflexivity.
  - rewrite timestamp_eq; cbv zeta. unfold options. reflexivity.
Qed.

(** C6. The call with no argument hands the "plot" module the dictionary
    [{T: True, U: "+jBL+o-54p/-54p"}] and the configuration
    [{FONT_LOGO: "Helvetica,black", FORMAT_TIME_STAMP: "%Y %b %d %H:%M:%S"}],
    inside a session opened after the preprocessing. *)
Theorem default_call :
  let kwdict : gmap string pyobj :=
    {[ "T" := PyBool true; "U" := PyStr "+jBL+o-54p/-54p" ]} in
  let confdict : gmap string pyobj :=
    {[ "FONT_LOGO" := PyStr "Helvetica,black";
       "FORMAT_TIME_STAMP" := PyStr "%Y %b %d %H:%M:%S" ]} in
  trace (timestamp_default gmt_version build_arg_string engine)
  = [EvPreprocess; EvSessionEnter;
     EvCallModule "plot" (build_arg_string kwdict confdict);
     EvSessionExit]
  /\ result (timestamp_default gmt_version build_arg_string engine)
     = match engine "plot" (build_arg_string kwdict confdict) with
       | None => inr tt
       | Some msg => inl (GMTCLibError msg)
       end.
Proof.
  cbv zeta. unfold timestamp_default.
  rewrite timestamp_eq; cbv zeta. unfold options.
  split; reflexivity.
Qed.

(** C7, as the code has it.  A call that fails validation has made one
    call to a collaborator, the preprocessing of the figure, which opens
    the body; nothing follows it: no session is entered and no command is
    executed.  The failure is one of the two raised for [text]. *)
Theorem validation_failure_effects (text label : option pyobj)
    (justification : pyobj) (offset : offset_arg) (font timefmt : pyobj)
    (msg : string) :
  result (timestamp text label justification offset font timefmt)
  = inl (GMTInvalidInput msg) ->
  trace (timestamp text label justification offset font timefmt)
  = [EvPreprocess]
  /\ (msg = msg_text_requires \/ msg = msg_text_too_long).
Proof.
  rewrite timestamp_eq; cbv zeta.
  destruct text as [t|].
  - destruct (Version.lt gmt_version Version.v6_5_0).
    { simpl. intros [= <-]. auto. }
    destruct (64 <? len (str t))%nat.
    { simpl. intros [= <-]. auto. }
    intros H. now apply forwarded_not_invalid in H.
  - intros H. now apply forwarded_not_invalid in H.
Qed.

(** C8. The justification is not validated: whatever string is given, a
    call that passes the checks on [text] reaches the engine with ["+j"]
    followed by that string, right after the label, the rest of [U] being
    the same for every justification; the call then ends as the engine
    answers.  And a [GMTInvalidInput] raised under one justification is
    raised under every other one. *)
Theorem justification_not_validated (text label : option pyobj)
    (offset : offset_arg) (font timefmt : pyobj) :
  (text_accepted text ->
   exists rest, forall j : string,
       timestamp text label (PyStr j) offset font timefmt
       = forwarded
           {[ "T" := PyBool true;
              "U" := PyStr (from_option format "" label
                            ++ "+j" ++ j ++ rest) ]}
           {[ "FONT_LOGO" := font; "FORMAT_TIME_STAMP" := timefmt ]})
  /\ (forall (j j' : string) (msg : string),
         result (timestamp text label (PyStr j) offset font timefmt)
         = inl (GMTInvalidInput msg) ->
         result (timestamp text label (PyStr j') offset font timefmt)
         = inl (GMTInvalidInput msg)).
Proof.
  split.
  - intros Hacc. eexists. intros j.
    rewrite (timestamp_accepted _ _ _ _ _ _ Hacc). unfold options. reflexivity.
  - intros j j' msg. rewrite !timestamp_eq; cbv zeta.
    destruct text as [t|].
    + destruct (Version.lt gmt_version Version.v6_5_0); [trivial|].
      destruct (64 <? len (str t))%nat; [trivial|].
      intros H. now apply forwarded_not_invalid in H.
    + intros H. now apply forwarded_not_invalid in H.
Qed.

End Claims.

(** ** The claims on concrete calls *)

Lemma text_version_gate_witness :
  (Version.lt Version.v6_4_0 Version.v6_5_0 = true
   /\ timestamp Version.v6_4_0 sample_build_arg_string quiet_engine
        (Some (PyStr "hello")) None default_justification default_offset
        default_font default_timefmt
      = rejected msg_text_requires)
  /\ (Version.ge Version.v6_5_0 Version.v6_5_0 = true
      /\ (len (str (PyStr "hello")) <= 64)%nat
      /\ exists u,
          timestamp Version.v6_5_0 sample_build_arg_string quiet_engine
            (Some (PyStr "hello")) None default_justification default_offset
            default_font default_timefmt
          = forwarded sample_build_arg_string quiet_engine
              {[ "T" := PyBool true; "U" := PyStr (u ++ "+thello") ]}
              {[ "FONT_LOGO" := default_font;
                 "FORMAT_TIME_STAMP" := default_timefmt ]}).
Proof.
  split.
  - split; [reflexivity|].
    apply (proj1 (text_version_gate Version.v6_4_0 sample_build_arg_string
                    quiet_engine (PyStr "hello") None default_justification
                    default_offset default_font default_timefmt)).
    reflexivity.
  - split; [reflexivity|]. split; [vm_compute; lia|].
    apply (proj2 (text_version_gate Version.v6_5_0 sample_build_arg_string
                    quiet_engine (PyStr "hello") None default_justification
                    default_offset default_font default_timefmt)).
    + reflexivity.
    + vm_compute; lia.
Defined.

Lemma text_length_limit_witness :
  Version.ge Version.v6_5_0 Version.v6_5_0 = true
  /\ (len (str (PyStr text64)) <= 64)%nat
  /\ (len (str (PyStr text64_accented)) <= 64)%nat
  /\ (65 <= len (str (PyStr text65)))%nat
  /\ (exists u,
         timestamp Version.v6_5_0 sample_build_arg_string quiet_engine
           (Some (PyStr text64)) None default_justification default_offset
           default_font default_timefmt
         = forwarded sample_build_arg_string quiet_engine
             {[ "T" := PyBool true; "U" := PyStr u ]}
             {[ "FONT_LOGO" := default_font;
                "FORMAT_TIME_STAMP" := default_timefmt ]})
  /\ (exists u,
         timestamp Version.v6_5_0 sample_build_arg_string quiet_engine
           (Some (PyStr text64_accented)) None default_justification
           default_offset default_font default_timefmt
         = forwarded sample_build_arg_string quiet_engine
             {[ "T" := PyBool true; "U" := PyStr u ]}
             {[ "FONT_LOGO" := default_font;
                "FORMAT_TIME_STAMP" := default_timefmt ]})
  /\ timestamp Version.v6_5_0 sample_build_arg_string quiet_engine
       (Some (PyStr text65)) None default_justification default_offset
       default_font default_timefmt
     = rejected msg_text_too_long.
Proof.
  split; [reflexivity|]. split; [vm_compute; lia|].
  split; [vm_compute; lia|]. split; [vm_compute; lia|].
  split; [|split].
  - apply (proj1 (text_length_limit Version.v6_5_0 sample_build_arg_string
                    quiet_engine (PyStr text64) None default_justification
                    default_offset default_font default_timefmt
                    eq_refl)).
    vm_compute; lia.
  - apply (proj1 (text_length_limit Version.v6_5_0 sample_build_arg_string
                    quiet_engine (PyStr text64_accented) None
                    default_justification default_offset default_font
                    default_timefmt eq_refl)).
    vm_compute; lia.
  - apply (proj2 (text_length_limit Version.v6_5_0 sample_build_arg_string
                    quiet_engine (PyStr text65) None default_justification
                    default_offset default_font default_timefmt
                    eq_refl)).
    vm_compute; lia.
Defined.

Lemma version_check_precedes_length_check_witness :
  Version.lt Version.v6_4_0 Version.v6_5_0 = true
  /\ (64 < len (str (PyStr text65)))%nat
  /\ timestamp Version.v6_4_0 sample_build_arg_string quiet_engine
       (Some (PyStr text65)) None default_justification default_offset
       default_font default_timefmt
     = rejected msg_text_requires.
Proof.
  split; [reflexivity|]. split; [vm_compute; lia|].
  apply (version_check_precedes_length_check Version.v6_4_0
           sample_build_arg_string quiet_engine (PyStr text65) None
           default_justification default_offset default_font
           default_timefmt).
  - reflexivity.
  - vm_compute; lia.
Defined.

Lemma single_offset_fragment_witness :
  contains "/" "10p" = false
  /\ text_accepted Version.v6_4_0 None
  /\ timestamp Version.v6_4_0 sample_build_arg_string quiet_engine
       None None default_justification (OffsetStr "10p")
       default_font default_timefmt
     = forwarded sample_build_arg_string quiet_engine
         {[ "T" := PyBool true; "U" := PyStr "+jBL+o10p/10p" ]}
         {[ "FONT_LOGO" := default_font;
            "FORMAT_TIME_STAMP" := default_timefmt ]}.
Proof.
  split; [reflexivity|]. split; [exact I|].
  apply (single_offset_fragment Version.v6_4_0 sample_build_arg_string
           quiet_engine "10p" None None default_justification
           default_font default_timefmt).
  - reflexivity.
  - exact I.
Defined.

Lemma pair_offset_fragment_witness :
  text_accepted Version.v6_4_0 None
  /\ timestamp Version.v6_4_0 sample_build_arg_string quiet_engine
       None None default_justification
       (OffsetIter [PyStr "-54p"; PyStr "-54p"])
       default_font default_timefmt
     = forwarded sample_build_arg_string quiet_engine
         {[ "T" := PyBool true; "U" := PyStr "+jBL+o-54p/-54p" ]}
         {[ "FONT_LOGO" := default_font;
            "FORMAT_TIME_STAMP" := default_timefmt ]}.
Proof.
  split; [exact I|].
  apply (pair_offset_fragment Version.v6_4_0 sample_build_arg_string
           quiet_engine (PyStr "-54p") (PyStr "-54p") None None
           default_justification default_font default_timefmt).
  exact I.
Defined.

Lemma iterable_offset_fragment_witness :
  text_accepted Version.v6_5_0 (Some (PyInt 2023))
  /\ timestamp Version.v6_5_0 sample_build_arg_string quiet_engine
       (Some (PyInt 2023)) None default_justification
       (OffsetIter [PyStr "1p"; PyInt 2; PyStr "3p"; PyStr "4p"])
       default_font default_timefmt
     = forwarded sample_build_arg_string quiet_engine
         {[ "T" := PyBool true; "U" := PyStr "+jBL+o1p/2/3p/4p+t2023" ]}
         {[ "FONT_LOGO" := default_font;
            "FORMAT_TIME_STAMP" := default_timefmt ]}.
Proof.
  assert (Hacc : text_accepted Version.v6_5_0 (Some (PyInt 2023))).
  { split; [reflexivity | vm_compute; lia]. }
  split; [exact Hacc|].
  apply (proj1 (iterable_offset_fragment Version.v6_5_0
                  sample_build_arg_string quiet_engine)
           [PyStr "1p"; PyInt 2; PyStr "3p"; PyStr "4p"]
           (Some (PyInt 2023)) None default_justification
           default_font default_timefmt Hacc).
Defined.

Lemma option_string_order_witness :
  text_accepted Version.v6_5_0 (Some (PyStr "hello"))
  /\ timestamp Version.v6_5_0 sample_build_arg_string quiet_engine
       (Some (PyStr "hello")) (Some (PyStr "Powered by PyGMT"))
       (PyStr "TR") (OffsetStr "10p") default_font default_timefmt
     = forwarded sample_build_arg_string quiet_engine
         {[ "T" := PyBool true;
            "U" := PyStr "Powered by PyGMT+jTR+o10p+thello" ]}
         {[ "FONT_LOGO" := default_font;
            "FORMAT_TIME_STAMP" := default_timefmt ]}.
Proof.
  assert (Hacc : text_accepted Version.v6_5_0 (Some (PyStr "hello"))).
  { split; [reflexivity | vm_compute; lia]. }
  split; [exact Hacc|].
  apply (proj1 (option_string_order Version.v6_5_0
                  sample_build_arg_string quiet_engine)
           (Some (PyStr "hello")) (Some (PyStr "Powered by PyGMT"))
           (PyStr "TR") (OffsetStr "10p") default_font default_timefmt
           Hacc).
Defined.

(** C7, as the spec words it, fails: a text on engine 6.4.0 is rejected,
    and by then the preprocessing of the figure has been called. *)
Lemma rejected_call_has_preprocessed :
  result (timestamp Version.v6_4_0 sample_build_arg_string quiet_engine
            (Some (PyStr "hello")) None default_justification
            default_offset default_font default_timefmt)
  = inl (GMTInvalidInput msg_text_requires)
  /\ In EvPreprocess
       (trace (timestamp Version.v6_4_0 sample_build_arg_string quiet_engine
                 (Some (PyStr "hello")) None default_justification
                 default_offset default_font default_timefmt)).
Proof. split; [reflexivity | left; reflexivity]. Qed.

Lemma validation_failure_effects_witness :
  result (timestamp Version.v6_5_0 sample_build_arg_string quiet_engine
            (Some (PyStr text65)) None default_justification
            default_offset default_font default_timefmt)
  = inl (GMTInvalidInput msg_text_too_long)
  /\ trace (timestamp Version.v6_5_0 sample_build_arg_string quiet_engine
             (Some (PyStr text65)) None default_justification
             default_offset default_font default_timefmt)
     = [EvPreprocess].
Proof.
  split; [reflexivity|].
  apply (validation_failure_effects Version.v6_5_0 sample_build_arg_string
           quiet_engine (Some (PyStr text65)) None default_justification
           default_offset default_font default_timefmt msg_text_too_long).
  reflexivity.
Defined.

Lemma justification_not_validated_witness :
  (text_accepted Version.v6_4_0 None
   /\ exists rest, forall j : string,
       timestamp Version.v6_4_0 sample_build_arg_string quiet_engine
         None None (PyStr j) default_offset default_font default_timefmt
       = forwarded sample_build_arg_string quiet_engine
           {[ "T" := PyBool true; "U" := PyStr ("" ++ "+j" ++ j ++ rest) ]}
           {[ "FONT_LOGO" := default_font;
              "FORMAT_TIME_STAMP" := default_timefmt ]})
  /\ (result (timestamp Version.v6_4_0 sample_build_arg_string quiet_engine
                (Some (PyStr "hello")) None (PyStr "XY") default_offset
                default_font default_timefmt)
      = inl (GMTInvalidInput msg_text_requires)
      /\ result (timestamp Version.v6_4_0 sample_build_arg_string
                   quiet_engine (Some (PyStr "hello")) None (PyStr "BL")
                   default_offset default_font default_timefmt)
         = inl (GMTInvalidInput msg_text_requires)).
Proof.
  split.
  - split; [exact I|].
    apply (proj1 (justification_not_validated Version.v6_4_0
                    sample_build_arg_string quiet_engine None None
                    default_offset default_font default_timefmt)).
    exact I.
  - split; [reflexivity|].
    apply (proj2 (justification_not_validated Version.v6_4_0
                    sample_build_arg_string quiet_engine
                    (Some (PyStr "hello")) None
                    default_offset default_font default_timefmt)
             "XY" "BL" msg_text_requires).
    reflexivity.
Defined.

(** * Further properties of [timestamp] *)

(** ** The version ordering is transitive *)

Lemma tuple_compare_le_trans (a b c : list N) :
  Version.tuple_compare a b <> Gt ->
  Version.tuple_compare b c <> Gt ->
  Version.tuple_compare a c <> Gt.
Proof.
  revert b c. induction a as [|x a IH]; intros [|y b] [|z c]; simpl;
    try congruence.
  destruct (N.compare_spec x y) as [->|Hxy|Hxy]; try congruence.
  - destruct (N.compare_spec y z) as [->|Hyz|Hyz]; try congruence.
    apply IH.
  - intros _.
    destruct (N.compare_spec y z) as [->|Hyz|Hyz]; try congruence; intros _.
    + destruct (N.compare_spec x z); try congruence; lia.
    + destruct (N.compare_spec x z); try congruence; lia.
Qed.

Lemma version_le_trans (u v w : Version.t) :
  Version.le u v = true -> Version.le v w = true -> Version.le u w = true.
Proof.
  unfold Version.le, Version.compare. intros Huv Hvw.
  pose proof (tuple_compare_le_trans (Version._cmpkey u) (Version._cmpkey v)
                (Version._cmpkey w)) as H.
  destruct (Version.tuple_compare (Version._cmpkey u) (Version._cmpkey v));
    try discriminate;
    destruct (Version.tuple_compare (Version._cmpkey v) (Version._cmpkey w));
    try discriminate;
    destruct (Version.tuple_compare (Version._cmpkey u) (Version._cmpkey w));
    try reflexivity; exfalso; apply H; congruence.
Qed.

(** The two gates do not overlap: from 6.5.0 on, the engine is above 6.4.0. *)
Lemma version_ge_6_5_0_not_le_6_4_0 (v : Version.t) :
  Version.ge v Version.v6_5_0 = true ->
  Version.le v Version.v6_4_0 = false.
Proof.
  unfold Version.ge. intros Hge.
  destruct (Version.le v Version.v6_4_0) eqn:Hle; [|reflexivity].
  pose proof (version_le_trans _ _ _ Hge Hle) as H. discriminate.
Qed.

(** ** Strings joined with a slash *)

Lemma contains_slash_append (x y : string) :
  contains "/" (x ++ "/" ++ y) = true.
Proof.
  apply contains_slash_iff. induction x as [|c x IH].
  - left. reflexivity.
  - right. exact IH.
Qed.

Lemma contains_slash_join (x y : string) (rest : list string) :
  contains "/" (join "/" (x :: y :: rest)) = true.
Proof. apply (contains_slash_append x (join "/" (y :: rest))). Qed.

Section Further.

Variable gmt_version : Version.t.
Variable build_arg_string :
  gmap string pyobj -> gmap string pyobj -> string.
Variable engine : string -> string -> option string.

(** X1. A single string offset that holds a ["/"] is passed on as it is,
    on every engine version: the value is taken to give both offsets. *)
Theorem offset_with_slash_kept (s : string) (text label : option pyobj)
    (justification : pyobj) (font timefmt : pyobj) :
  contains "/" s = true ->
  text_accepted gmt_version text ->
  timestamp gmt_version build_arg_string engine
    text label justification (OffsetStr s) font timefmt
  = forwarded build_arg_string engine
      {[ "T" := PyBool true;
         "U" := PyStr (from_option format "" label
                       ++ "+j" ++ format justification
                       ++ "+o" ++ s
                       ++ from_option (fun t => "+t" ++ str t) "" text) ]}
      {[ "FONT_LOGO" := font; "FORMAT_TIME_STAMP" := timefmt ]}.
Proof.
  intros Hs Hacc. rewrite (timestamp_accepted _ _ _ _ _ _ _ _ _ Hacc).
  unfold options, offset_modifier. rewrite Hs. simpl.
  norm_str. reflexivity.
Qed.

(** X2. On an engine of at most 6.4.0, a single string offset without
    ["/"] makes the very same call as the pair that holds it twice: same
    calls to the collaborators, same result, whatever the other
    arguments. *)
Theorem single_offset_as_pair (s : string) (text label : option pyobj)
    (justification : pyobj) (font timefmt : pyobj) :
  contains "/" s = false ->
  Version.le gmt_version Version.v6_4_0 = true ->
  timestamp gmt_version build_arg_string engine
    text label justification (OffsetStr s) font timefmt
  = timestamp gmt_version build_arg_string engine
      text label justification (OffsetIter [PyStr s; PyStr s]) font timefmt.
Proof.
  intros Hs Hle. rewrite !timestamp_eq. cbv zeta.
  unfold offset_modifier. rewrite Hs, Hle. reflexivity.
Qed.

(** X3. Two or more string offsets written as one string, joined with
    ["/"], make the very same call as the sequence of them, on every
    engine version and whatever the other arguments. *)
Theorem joined_offset_as_sequence (x y : string) (rest : list string)
    (text label : option pyobj) (justification : pyobj)
    (font timefmt : pyobj) :
  timestamp gmt_version build_arg_string engine
    text label justification (OffsetStr (join "/" (x :: y :: rest)))
    font timefmt
  = timestamp gmt_version build_arg_string engine
      text label justification (OffsetIter (map PyStr (x :: y :: rest)))
      font timefmt.
Proof.
  rewrite !timestamp_eq. cbv zeta. unfold offset_modifier.
  rewrite contains_slash_join. cbn [negb andb].
  rewrite map_map. cbn [format str]. rewrite map_id. reflexivity.
Qed.

(** X4. The calls a run makes have one of two shapes: the preprocessing
    alone, or the preprocessing followed by a session that is entered,
    executes one command, of module "plot", and is left.  So the
    preprocessing always comes first, no other module is ever called, and
    no session stays open. *)
Theorem trace_shape (text label : option pyobj) (justification : pyobj)
    (offset : offset_arg) (font timefmt : pyobj) :
  trace (timestamp gmt_version build_arg_string engine
           text label justification offset font timefmt) = [EvPreprocess]
  \/ exists args,
      trace (timestamp gmt_version build_arg_string engine
               text label justification offset font timefmt)
      = [EvPreprocess; EvSessionEnter; EvCallModule "plot" args;
         EvSessionExit].
Proof.
  rewrite timestamp_eq. cbv zeta.
  destruct text as [t|].
  - destruct (Version.lt gmt_version Version.v6_5_0); [left; reflexivity|].
    destruct (64 <? len (str t))%nat; [left; reflexivity|].
    right. eexists. reflexivity.
  - right. eexists. reflexivity.
Qed.

(** X5. A call raises [GMTInvalidInput] exactly when a text is given and
    either the engine is below 6.5.0 or the text, as a string, has more
    than 64 characters: label, justification, offset, font and time format
    are never a reason for it, whatever their length or content. *)
Theorem rejection_iff (text label : option pyobj) (justification : pyobj)
    (offset : offset_arg) (font timefmt : pyobj) :
  (exists msg,
      result (timestamp gmt_version build_arg_string engine
                text label justification offset font timefmt)
      = inl (GMTInvalidInput msg))
  <-> (exists t, text = Some t
                 /\ (Version.lt gmt_version Version.v6_5_0 = true
                     \/ (64 < len (str t))%nat)).
Proof.
  rewrite timestamp_eq. cbv zeta. split.
  - intros [msg H]. destruct text as [t|].
    + exists t. split; [reflexivity|].
      destruct (Version.lt gmt_version Version.v6_5_0); [now left|].
      destruct (64 <? len (str t))%nat eqn:Hlen.
      * right. now apply Nat.ltb_lt.
      * now apply forwarded_not_invalid in H.
    + now apply forwarded_not_invalid in H.
  - intros [t [-> [Hlt|Hlen]]].
    + rewrite Hlt. eexists. reflexivity.
    + destruct (Version.lt gmt_version Version.v6_5_0);
        [eexists; reflexivity|].
      apply Nat.ltb_lt in Hlen. rewrite Hlen. eexists. reflexivity.
Qed.

(** X6. With an offset that is a string or an iterable, the types the
    docstring gives, the in-place updates of [kwdict["U"]] never fail: the
    call ends in neither a [KeyError] nor a [TypeError]. *)
Theorem no_dictionary_error (text label : option pyobj)
    (justification : pyobj) (offset : offset_arg) (font timefmt : pyobj) :
  (forall key,
      result (timestamp gmt_version build_arg_string engine
                text label justification offset font timefmt)
      <> inl (KeyError key))
  /\ (forall msg,
         result (timestamp gmt_version build_arg_string engine
                   text label justification offset font timefmt)
         <> inl (TypeError msg)).
Proof.
  rewrite timestamp_eq. cbv zeta.
  assert (Hfwd : forall kw conf e,
             result (forwarded build_arg_string engine kw conf) = inl e ->
             exists msg, e = GMTCLibError msg).
  { intros kw conf e. unfold forwarded, result. simpl.
    destruct (engine "plot" (build_arg_string kw conf)) as [msg|];
      [|discriminate].
    intros [= <-]. eauto. }
  split; intros z H.
  - destruct text as [t|];
      [destruct (Version.lt gmt_version Version.v6_5_0); [discriminate|];
       destruct (64 <? len (str t))%nat; [discriminate|] |];
      apply Hfwd in H as [msg H]; discriminate.
  - destruct text as [t|];
      [destruct (Version.lt gmt_version Version.v6_5_0); [discriminate|];
       destruct (64 <? len (str t))%nat; [discriminate|] |];
      apply Hfwd in H as [msg H]; discriminate.
Qed.

(** X7. The font and the time format reach the configuration only: the
    dictionary of options of an accepted call is the same whatever they
    are, and they arrive unchanged under [FONT_LOGO] and
    [FORMAT_TIME_STAMP]. *)
Theorem font_timefmt_only_in_configuration (text label : option pyobj)
    (justification : pyobj) (offset : offset_arg) :
  text_accepted gmt_version text ->
  exists kwdict, forall font timefmt : pyobj,
      timestamp gmt_version build_arg_string engine
        text label justification offset font timefmt
      = forwarded build_arg_string engine kwdict
          {[ "FONT_LOGO" := font; "FORMAT_TIME_STAMP" := timefmt ]}.
Proof.
  intros Hacc. eexists. intros font timefmt.
  rewrite (timestamp_accepted _ _ _ _ _ _ _ _ _ Hacc). reflexivity.
Qed.

(** X8. An empty label is no label: the call is the same as with [None],
    whatever the other arguments. *)
Theorem empty_label_as_none (text : option pyobj) (justification : pyobj)
    (offset : offset_arg) (font timefmt : pyobj) :
  timestamp gmt_version build_arg_string engine
    text (Some (PyStr "")) justification offset font timefmt
  = timestamp gmt_version build_arg_string engine
      text None justification offset font timefmt.
Proof. rewrite !timestamp_eq. reflexivity. Qed.

(** X9. A text that an engine accepts is accepted by every later engine:
    if the call raises no [GMTInvalidInput] under one version, it raises
    none under a version that is at least as high. *)
Theorem later_engine_accepts (later : Version.t) (text label : option pyobj)
    (justification : pyobj) (offset : offset_arg) (font timefmt : pyobj) :
  Version.le gmt_version later = true ->
  (forall msg,
      result (timestamp gmt_version build_arg_string engine
                text label justification offset font timefmt)
      <> inl (GMTInvalidInput msg)) ->
  forall msg,
    result (timestamp later build_arg_string engine
              text label justification offset font timefmt)
    <> inl (GMTInvalidInput msg).
Proof.
  intros Hle Hok msg. rewrite timestamp_eq. cbv zeta.
  destruct text as [t|]; [|apply forwarded_not_invalid].
  assert (Hge : Version.ge gmt_version Version.v6_5_0 = true
                /\ (64 <? len (str t))%nat = false).
  { pose proof (fun m => Hok m) as H. rewrite timestamp_eq in H. cbv zeta in H.
    rewrite version_lt_not_ge in H.
    destruct (Version.ge gmt_version Version.v6_5_0).
    - split; [reflexivity|].
      destruct (64 <? len (str t))%nat; [|reflexivity].
      exfalso. exact (H _ eq_refl).
    - exfalso. exact (H _ eq_refl). }
  destruct Hge as [Hge Hlen].
  assert (Hge' : Version.ge later Version.v6_5_0 = true).
  { unfold Version.ge in *. exact (version_le_trans _ _ _ Hge Hle). }
  rewrite (version_ge_lt_false _ _ Hge'), Hlen.
  apply forwarded_not_invalid.
Qed.

(** X10. The two version gates exclude each other: when a text is given
    and accepted, a single string offset is never written twice, even
    without a ["/"]; [U] holds the offset as given, then the text. *)
Theorem offset_not_duplicated_with_text (t : pyobj) (s : string)
    (label : option pyobj) (justification : pyobj) (font timefmt : pyobj) :
  text_accepted gmt_version (Some t) ->
  timestamp gmt_version build_arg_string engine
    (Some t) label justification (OffsetStr s) font timefmt
  = forwarded build_arg_string engine
      {[ "T" := PyBool true;
         "U" := PyStr (from_option format "" label
                       ++ "+j" ++ format justification
                       ++ "+o" ++ s ++ "+t" ++ str t) ]}
      {[ "FONT_LOGO" := font; "FORMAT_TIME_STAMP" := timefmt ]}.
Proof.
  intros Hacc. rewrite (timestamp_accepted _ _ _ _ _ _ _ _ _ Hacc).
  destruct Hacc as [Hge _].
  unfold options, offset_modifier.
  rewrite (version_ge_6_5_0_not_le_6_4_0 _ Hge), andb_false_r. simpl.
  norm_str. reflexivity.
Qed.

(** X11. When a command is executed, it is of module "plot", the session
    is left after it, and the call ends exactly as the engine answers that
    command: normally when it runs, with its [GMTCLibError] otherwise. *)
Theorem engine_answer_is_result (module args : string)
    (text label : option pyobj) (justification : pyobj)
    (offset : offset_arg) (font timefmt : pyobj) :
  In (EvCallModule module args)
    (trace (timestamp gmt_version build_arg_string engine
              text label justification offset font timefmt)) ->
  module = "plot"
  /\ last (trace (timestamp gmt_version build_arg_string engine
                    text label justification offset font timefmt))
     = Some EvSessionExit
  /\ result (timestamp gmt_version build_arg_string engine
               text label justification offset font timefmt)
     = match engine module args with
       | None => inr tt
       | Some msg => inl (GMTCLibError msg)
       end.
Proof.
  rewrite timestamp_eq. cbv zeta.
  assert (Hfwd : forall kw conf,
             In (EvCallModule module args)
               (trace (forwarded build_arg_string engine kw conf)) ->
             module = "plot"
             /\ last (trace (forwarded build_arg_string engine kw conf))
                = Some EvSessionExit
             /\ result (forwarded build_arg_string engine kw conf)
                = match engine module args with
                  | None => inr tt
                  | Some msg => inl (GMTCLibError msg)
                  end).
  { intros kw conf. unfold forwarded, trace, result. simpl.
    intros [H|[H|[H|[H|[]]]]]; try discriminate.
    injection H as <- <-. auto. }
  assert (Hrej : forall msg,
             ~ In (EvCallModule module args) (trace (rejected msg))).
  { intros msg [H|[]]. discriminate. }
  destruct text as [t|]; [|apply Hfwd].
  destruct (Version.lt gmt_version Version.v6_5_0);
    [intros H; now apply Hrej in H|].
  destruct (64 <? len (str t))%nat; [intros H; now apply Hrej in H|].
  apply Hfwd.
Qed.

(** X12. A call returns normally only after the engine has run the "plot"
    command of its trace: it never returns without having executed it. *)
Theorem returns_only_after_plot (text label : option pyobj)
    (justification : pyobj) (offset : offset_arg) (font timefmt : pyobj) :
  result (timestamp gmt_version build_arg_string engine
            text label justification offset font timefmt) = inr tt ->
  exists args,
    In (EvCallModule "plot" args)
      (trace (timestamp gmt_version build_arg_string engine
                text label justification offset font timefmt))
    /\ engine "plot" args = None.
Proof.
  rewrite timestamp_eq. cbv zeta.
  assert (Hfwd : forall kw conf,
             result (forwarded build_arg_string engine kw conf) = inr tt ->
             exists args,
               In (EvCallModule "plot" args)
                 (trace (forwarded build_arg_string engine kw conf))
               /\ engine "plot" args = None).
  { intros kw conf. unfold forwarded, trace, result. simpl.
    destruct (engine "plot" (build_arg_string kw conf)) eqn:He;
      [discriminate|].
    intros _. eexists. split; [right; right; left; reflexivity | exact He]. }
  destruct text as [t|]; [|apply Hfwd].
  destruct (Version.lt gmt_version Version.v6_5_0); [discriminate|].
  destruct (64 <? len (str t))%nat; [discriminate|].
  apply Hfwd.
Qed.

End Further.

(** ** The further properties on concrete calls *)

Lemma offset_with_slash_kept_witness :
  contains "/" "10p/-5p" = true
  /\ text_accepted Version.v6_4_0 None
  /\ timestamp Version.v6_4_0 sample_build_arg_string quiet_engine
       None None default_justification (OffsetStr "10p/-5p")
       default_font default_timefmt
     = forwarded sample_build_arg_string quiet_engine
         {[ "T" := PyBool true; "U" := PyStr "+jBL+o10p/-5p" ]}
         {[ "FONT_LOGO" := default_font;
            "FORMAT_TIME_STAMP" := default_timefmt ]}.
Proof.
  split; [reflexivity|]. split; [exact I|].
  apply (offset_with_slash_kept Version.v6_4_0 sample_build_arg_string
           quiet_engine "10p/-5p" None None default_justification
           default_font default_timefmt).
  - reflexivity.
  - exact I.
Defined.

Lemma single_offset_as_pair_witness :
  contains "/" "10p" = false
  /\ Version.le Version.v6_4_0 Version.v6_4_0 = true
  /\ timestamp Version.v6_4_0 sample_build_arg_string quiet_engine
       None (Some (PyStr "Powered by PyGMT")) default_justification
       (OffsetStr "10p") default_font default_timefmt
     = timestamp Version.v6_4_0 sample_build_arg_string quiet_engine
         None (Some (PyStr "Powered by PyGMT")) default_justification
         (OffsetIter [PyStr "10p"; PyStr "10p"]) default_font default_timefmt.
Proof.
  split; [reflexivity|]. split; [reflexivity|].
  apply (single_offset_as_pair Version.v6_4_0 sample_build_arg_string
           quiet_engine "10p" None (Some (PyStr "Powered by PyGMT"))
           default_justification default_font default_timefmt).
  - reflexivity.
  - reflexivity.
Defined.

Lemma rejection_iff_witness :
  ((64 < len (str (PyStr text65)))%nat
   /\ exists msg,
       result (timestamp Version.v6_5_0 sample_build_arg_string quiet_engine
                 (Some (PyStr text65)) None default_justification
                 default_offset default_font default_timefmt)
       = inl (GMTInvalidInput msg))
  /\ ~ (exists msg,
          result (timestamp Version.v6_5_0 sample_build_arg_string
                    quiet_engine (Some (PyStr text64_accented)) None
                    default_justification default_offset default_font
                    default_timefmt)
          = inl (GMTInvalidInput msg)).
Proof.
  assert (Hlen : (64 < len (str (PyStr text65)))%nat) by (vm_compute; lia).
  split; [split; [exact Hlen|] |].
  - apply (proj2 (rejection_iff Version.v6_5_0 sample_build_arg_string
                    quiet_engine (Some (PyStr text65)) None
                    default_justification default_offset default_font
                    default_timefmt)).
    exists (PyStr text65). split; [reflexivity | right; exact Hlen].
  - intros H.
    apply (proj1 (rejection_iff Version.v6_5_0 sample_build_arg_string
                    quiet_engine (Some (PyStr text64_accented)) None
                    default_justification default_offset default_font
                    default_timefmt)) in H.
    destruct H as [t [Ht [Hlt|Hlong]]].
    + discriminate Hlt.
    + injection Ht as <-. vm_compute in Hlong. lia.
Defined.

Lemma font_timefmt_only_in_configuration_witness :
  text_accepted Version.v6_4_0 None
  /\ exists kwdict, forall font timefmt : pyobj,
      timestamp Version.v6_4_0 sample_build_arg_string quiet_engine
        None None default_justification default_offset font timefmt
      = forwarded sample_build_arg_string quiet_engine kwdict
          {[ "FONT_LOGO" := font; "FORMAT_TIME_STAMP" := timefmt ]}.
Proof.
  split; [exact I|].
  apply (font_timefmt_only_in_configuration Version.v6_4_0
           sample_build_arg_string quiet_engine None None
           default_justification default_offset).
  exact I.
Defined.

Lemma later_engine_accepts_witness :
  Version.le Version.v6_5_0 (Version.Make [6; 10; 0]%N) = true
  /\ forall msg,
      result (timestamp (Version.Make [6; 10; 0]%N) sample_build_arg_string
                quiet_engine (Some (PyStr "hello")) None
                default_justification default_offset default_font
                default_timefmt)
      <> inl (GMTInvalidInput msg).
Proof.
  split; [reflexivity|].
  apply (later_engine_accepts Version.v6_5_0 sample_build_arg_string
           quiet_engine (Version.Make [6; 10; 0]%N) (Some (PyStr "hello"))
           None default_justification default_offset default_font
           default_timefmt).
  - reflexivity.
  - intros msg. vm_compute. discriminate.
Defined.

Lemma offset_not_duplicated_with_text_witness :
  text_accepted Version.v6_5_0 (Some (PyStr "hello"))
  /\ timestamp Version.v6_5_0 sample_build_arg_string quiet_engine
       (Some (PyStr "hello")) None default_justification (OffsetStr "10p")
       default_font default_timefmt
     = forwarded sample_build_arg_string quiet_engine
         {[ "T" := PyBool true; "U" := PyStr "+jBL+o10p+thello" ]}
         {[ "FONT_LOGO" := default_font;
            "FORMAT_TIME_STAMP" := default_timefmt ]}.
Proof.
  assert (Hacc : text_accepted Version.v6_5_0 (Some (PyStr "hello"))).
  { split; [reflexivity | vm_compute; lia]. }
  split; [exact Hacc|].
  apply (offset_not_duplicated_with_text Version.v6_5_0
           sample_build_arg_string quiet_engine (PyStr "hello") "10p" None
           default_justification default_font default_timefmt Hacc).
Defined.

Lemma engine_answer_is_result_witness :
  In (EvCallModule "plot" "-T -U+jXY+o-54p/-54p")
    (trace (timestamp Version.v6_5_0 sample_build_arg_string
              (fun _ _ => Some "plot [ERROR]")
              None None (PyStr "XY") default_offset default_font
              default_timefmt))
  /\ result (timestamp Version.v6_5_0 sample_build_arg_string
              (fun _ _ => Some "plot [ERROR]")
              None None (PyStr "XY") default_offset default_font
              default_timefmt)
     = inl (GMTCLibError "plot [ERROR]").
Proof.
  assert (Hin : In (EvCallModule "plot" "-T -U+jXY+o-54p/-54p")
                  (trace (timestamp Version.v6_5_0 sample_build_arg_string
                            (fun _ _ => Some "plot [ERROR]")
                            None None (PyStr "XY") default_offset
                            default_font default_timefmt))).
  { right. right. left. reflexivity. }
  split; [exact Hin|].
  apply (engine_answer_is_result Version.v6_5_0 sample_build_arg_string
           (fun _ _ => Some "plot [ERROR]") "plot" "-T -U+jXY+o-54p/-54p"
           None None (PyStr "XY") default_offset default_font
           default_timefmt Hin).
Defined.

Lemma returns_only_after_plot_witness :
  result (timestamp_default Version.v6_4_0 sample_build_arg_string
            quiet_engine) = inr tt
  /\ exists args,
      In (EvCallModule "plot" args)
        (trace (timestamp_default Version.v6_4_0 sample_build_arg_string
                  quiet_engine))
      /\ quiet_engine "plot" args = None.
Proof.
  split; [reflexivity|].
  apply (returns_only_after_plot Version.v6_4_0 sample_build_arg_string
           quiet_engine None None default_justification default_offset
           default_font default_timefmt).
  reflexivity.
Defined.
